(** * GitHubAutoUpdater (src/check.py): a shallow embedding

    The poller is modelled as a state-and-exception monad over a record
    holding the updater object ([self]) and the outside world: the answers
    of the processes it launches, of the HTTP requests it makes, the files
    of the project tree, a clock and a trace of observable events
    (process launches, sleeps, HTTP requests, log records, prints,
    notifications). *)

From Stdlib Require Import String Ascii List ZArith Bool Lia.
Import ListNotations.
Open Scope string_scope.
Open Scope Z_scope.
#[local] Set Warnings "-register-all".

(** ** Python values read from JSON *)

Inductive json : Type :=
| JNull
| JBool (b : bool)
| JNum (n : Z)
| JStr (s : string)
| JArr (l : list json)
| JObj (kv : list (string * json)).

(** Python truthiness of such a value ([if not x]). *)
Definition truthy (j : json) : bool :=
  match j with
  | JNull => false
  | JBool b => b
  | JNum n => negb (n =? 0)
  | JStr s => negb (String.eqb s "")
  | JArr l => match l with [] => false | _ => true end
  | JObj kv => match kv with [] => false | _ => true end
  end.

Fixpoint json_eqb (a b : json) : bool :=
  match a, b with
  | JNull, JNull => true
  | JBool x, JBool y => Bool.eqb x y
  | JNum x, JNum y => x =? y
  | JStr x, JStr y => String.eqb x y
  | JArr xs, JArr ys =>
      (fix go (xs ys : list json) : bool :=
         match xs, ys with
         | [], [] => true
         | x :: xs', y :: ys' => json_eqb x y && go xs' ys'
         | _, _ => false
         end) xs ys
  | JObj xs, JObj ys =>
      (fix go (xs ys : list (string * json)) : bool :=
         match xs, ys with
         | [], [] => true
         | (k, x) :: xs', (k', y) :: ys' =>
             String.eqb k k' && json_eqb x y && go xs' ys'
         | _, _ => false
         end) xs ys
  | _, _ => false
  end.

(** ** Python exceptions raised on the paths of the poller *)

Inductive exn : Type :=
| CalledProcessError      (* subprocess.run(..., check=True), non-zero exit *)
| TimeoutExpired          (* subprocess.run(..., timeout=t) overran t *)
| FileNotFoundError       (* the program or the cwd of a launch is missing *)
| RequestException        (* requests: timeout, refused connection, DNS *)
| KeyError
| TypeError
| ValueError              (* time.sleep of a negative duration *)
| OverflowError           (* time.sleep of a duration beyond the C clock range *)
| KeyboardInterrupt.

(** [except Exception] catches every exception but KeyboardInterrupt,
    which derives from BaseException only. *)
Definition is_Exception (e : exn) : bool :=
  match e with KeyboardInterrupt => false | _ => true end.

(** [data[key]] on a value parsed from JSON. *)
Definition getitem (j : json) (key : string) : json + exn :=
  match j with
  | JObj kv =>
      match find (fun p => String.eqb (fst p) key) kv with
      | Some (_, v) => inl v
      | None => inr KeyError
      end
  | _ => inr TypeError
  end.

(** [x[:8]] *)
Definition slice8 (j : json) : json + exn :=
  match j with
  | JStr s => inl (JStr (substring 0 8 s))
  | JArr l => inl (JArr (firstn 8 l))
  | _ => inr TypeError
  end.

(** [str.strip()] with no argument: the ASCII characters for which
    [str.isspace] holds. *)
Definition is_space (c : ascii) : bool :=
  let n := nat_of_ascii c in
  orb (andb (Nat.leb 9 n) (Nat.leb n 13)) (andb (Nat.leb 28 n) (Nat.leb n 32)).

Fixpoint lstrip (s : string) : string :=
  match s with
  | EmptyString => EmptyString
  | String c s' => if is_space c then lstrip s' else s
  end.

Definition rev_string (s : string) : string :=
  string_of_list_ascii (rev (list_ascii_of_string s)).

Definition strip (s : string) : string :=
  rev_string (lstrip (rev_string (lstrip s))).

(** ** Processes *)

Inductive cmd : Type :=
| Shell (line : string)          (* shell=True *)
| Argv (args : list string).

Record call : Type := mk_call {
  c_cmd : cmd;
  c_cwd : option string;
  c_check : bool;
  c_timeout : option Z
}.

(** What the environment answers to one launch. *)
Inductive proc_outcome : Type :=
| PExit (code : Z) (stdout stderr : string)   (* ran to completion *)
| POverran                                    (* still running when a timeout fires *)
| PNotFound.                                  (* the launch itself fails (OSError) *)

Record completed : Type := mk_completed {
  returncode : Z;
  out : string;
  err : string
}.

Inductive http_outcome : Type :=
| HResp (status : Z) (body : json)
| HNetErr.

(** The dict built by [get_remote_commit_info]; its values are whatever
    the response body holds. *)
Record commit_info : Type := mk_commit_info {
  sha : json;
  message : json;
  author : json;
  date : json;
  url : json
}.

Inductive level : Type := Debug | Info | Warning | Error.

Inductive event : Type :=
| ERun (c : call)
| ESleep (seconds : Z)
| EHttp (url : string)
| ELog (lvl : level) (msg : string)
| EPrint (msg : string)
| ENotify (ci : commit_info) (success : bool).   (* the report send_notification logs *)

(** ** The updater object and the world *)

(** Attributes set once by [__init__]. *)
Record settings : Type := mk_settings {
  owner : string;
  repo : string;
  branch : string;
  project_path : string;
  poll_interval : Z;
  github_token : option string;
  max_retries : Z;
  retry_delay : Z
}.

(** Attributes the updater mutates: [last_commit] (a str or None),
    [update_count] and [last_check] (None or a datetime). *)
Record dstate : Type := mk_dstate {
  last_commit : json;
  update_count : Z;
  last_check : option Z
}.

Record world : Type := mk_world {
  w_proc : nat -> call -> proc_outcome;   (* answer to the n-th launch *)
  w_nproc : nat;
  w_http : nat -> http_outcome;           (* answer to the n-th request *)
  w_nhttp : nat;
  w_exists : string -> bool;              (* os.path.exists *)
  w_clock : Z;                            (* datetime.now(), in seconds *)
  w_strftime : Z -> string;               (* the local calendar *)
  w_trace : list event
}.

Record st : Type := mk_st {
  cfg : settings;
  ds : dstate;
  env : world
}.

Definition set_ds (d : dstate) (s : st) : st := mk_st (cfg s) d (env s).
Definition set_env (w : world) (s : st) : st := mk_st (cfg s) (ds s) w.

Definition emit (e : event) (w : world) : world :=
  mk_world (w_proc w) (w_nproc w) (w_http w) (w_nhttp w) (w_exists w)
    (w_clock w) (w_strftime w) (w_trace w ++ [e]).

(** ** The monad: state, Python exceptions, and calls that never return *)

Inductive result (A : Type) : Type :=
| Ok (a : A)
| Raise (e : exn)
| Hang.
Arguments Ok {A} a.
Arguments Raise {A} e.
Arguments Hang {A}.

Definition M (A : Type) : Type := st -> result A * st.

Definition ret {A} (a : A) : M A := fun s => (Ok a, s).
Definition raise {A} (e : exn) : M A := fun s => (Raise e, s).

Definition bind {A B} (m : M A) (k : A -> M B) : M B :=
  fun s =>
    match m s with
    | (Ok a, s') => k a s'
    | (Raise e, s') => (Raise e, s')
    | (Hang, s') => (Hang, s')
    end.

Notation "x <- m ;; k" := (bind m (fun x => k))
  (at level 61, m at next level, right associativity).
Notation "m ;;; k" := (bind m (fun _ => k))
  (at level 61, right associativity).

(** [try: m except ...]: [handler e] is [Some h] when an except clause
    matches [e], [None] when [e] propagates. *)
Definition try_except {A} (m : M A) (handler : exn -> option (M A)) : M A :=
  fun s =>
    match m s with
    | (Raise e, s') =>
        match handler e with
        | Some h => h s'
        | None => (Raise e, s')
        end
    | r => r
    end.

Definition lift {A} (r : A + exn) : M A :=
  match r with inl a => ret a | inr e => raise e end.

Definition get_cfg : M settings := fun s => (Ok (cfg s), s).
Definition get_ds : M dstate := fun s => (Ok (ds s), s).
Definition put_ds (d : dstate) : M unit := fun s => (Ok tt, set_ds d s).

(** ** Primitives *)

Definition log (lvl : level) (msg : string) : M unit :=
  fun s => (Ok tt, set_env (emit (ELog lvl msg) (env s)) s).

Definition print (msg : string) : M unit :=
  fun s => (Ok tt, set_env (emit (EPrint msg) (env s)) s).

Definition now : M Z := fun s => (Ok (w_clock (env s)), s).

Definition strftime (t : Z) : M string := fun s => (Ok (w_strftime (env s) t), s).

Definition path_exists (p : string) : M bool :=
  fun s => (Ok (w_exists (env s) p), s).

(** [os.path.join(a, b)] for a relative [b]. *)
Definition path_join (a b : string) : string :=
  match rev_string a with
  | EmptyString => b
  | String "/" _ => a ++ b
  | _ => a ++ "/" ++ b
  end.

(** [time.sleep(n)] for an int [n] (CPython): [n] seconds are first
    converted to a signed 64-bit count of nanoseconds, which overflows
    (OverflowError) outside [-9223372036, 9223372036]; a negative duration
    then raises ValueError. *)
Definition pytime_overflow (n : Z) : bool :=
  (n <? -9223372036) || (9223372036 <? n).

Arguments pytime_overflow : simpl never.

Definition time_sleep (n : Z) : M unit :=
  fun s =>
    if pytime_overflow n then (Raise OverflowError, s)
    else if n <? 0 then (Raise ValueError, s)
    else
      let w := env s in
      (Ok tt, set_env (mk_world (w_proc w) (w_nproc w) (w_http w) (w_nhttp w)
                         (w_exists w) (w_clock w + n) (w_strftime w)
                         (w_trace w ++ [ESleep n])) s).

(** [subprocess.run]: the launch is recorded, the environment answers it;
    [check=True] turns a non-zero exit into CalledProcessError, a call with
    a timeout that overruns raises TimeoutExpired, and a call without a
    timeout whose command overruns never returns. *)
Definition subprocess_run (c : call) : M completed :=
  fun s =>
    let w := env s in
    let o := w_proc w (w_nproc w) c in
    let s' := set_env (mk_world (w_proc w) (S (w_nproc w)) (w_http w) (w_nhttp w)
                         (w_exists w) (w_clock w) (w_strftime w)
                         (w_trace w ++ [ERun c])) s in
    match o with
    | PNotFound => (Raise FileNotFoundError, s')
    | POverran =>
        match c_timeout c with
        | Some _ => (Raise TimeoutExpired, s')
        | None => (Hang, s')
        end
    | PExit code o e =>
        if andb (c_check c) (negb (code =? 0)) then (Raise CalledProcessError, s')
        else (Ok (mk_completed code o e), s')
    end.

(** [requests.get(url, headers=..., timeout=10)] *)
Definition requests_get (u : string) : M (Z * json) :=
  fun s =>
    let w := env s in
    let o := w_http w (w_nhttp w) in
    let s' := set_env (mk_world (w_proc w) (w_nproc w) (w_http w) (S (w_nhttp w))
                         (w_exists w) (w_clock w) (w_strftime w)
                         (w_trace w ++ [EHttp u])) s in
    match o with
    | HResp code body => (Ok (code, body), s')
    | HNetErr => (Raise RequestException, s')
    end.

(** [self.logger.info(...)] of the report built by [send_notification]. *)
Definition log_notification (ci : commit_info) (success : bool) : M unit :=
  fun s => (Ok tt, set_env (emit (ENotify ci success) (env s)) s).

(** [try: m finally: fin] *)
Definition try_finally {A} (m : M A) (fin : M unit) : M A :=
  fun s =>
    match m s with
    | (Hang, s') => (Hang, s')
    | (r, s') =>
        match fin s' with
        | (Ok _, s'') => (r, s'')
        | (Raise e, s'') => (Raise e, s'')
        | (Hang, s'') => (Hang, s'')
        end
    end.

(** ** The methods of GitHubAutoUpdater *)

Definition git_rev_parse (path : string) : call :=
  mk_call (Argv ["git"; "rev-parse"; "HEAD"]) (Some path) true None.

Definition get_local_commit : M json :=
  c <- get_cfg ;;
  try_except
    (result <- subprocess_run (git_rev_parse (project_path c)) ;;
     let commit_hash := strip (out result) in
     log Debug "local commit" ;;;
     ret (JStr commit_hash))
    (fun e =>
       match e with
       | CalledProcessError => Some (log Error "reading the local commit failed" ;;; ret JNull)
       | _ => if is_Exception e
              then Some (log Error "reading the local commit raised" ;;; ret JNull)
              else None
       end).

Definition branch_url (c : settings) : string :=
  "https://20.205.243.168/repos/" ++ owner c ++ "/" ++ repo c ++ "/branches/" ++ branch c.

Definition sbind {A B} (r : A + exn) (k : A -> B + exn) : B + exn :=
  match r with inl a => k a | inr e => inr e end.

(** The dict literal of [get_remote_commit_info], its items evaluated in
    order. *)
Definition parse_commit (data : json) : commit_info + exn :=
  sbind (getitem data "commit") (fun commit =>
  sbind (getitem commit "sha") (fun s =>
  sbind (sbind (getitem commit "commit") (fun c => getitem c "message")) (fun m =>
  sbind (sbind (getitem commit "commit") (fun c =>
         sbind (getitem c "author") (fun a => getitem a "name"))) (fun n =>
  sbind (sbind (getitem commit "commit") (fun c =>
         sbind (getitem c "author") (fun a => getitem a "date"))) (fun d =>
  sbind (getitem commit "html_url") (fun u =>
  inl (mk_commit_info s m n d u))))))).

(** The request headers ([get_headers]) do not change the model's answer. *)
Definition get_remote_commit_info : M (option commit_info) :=
  c <- get_cfg ;;
  try_except
    (resp <- requests_get (branch_url c) ;;
     let (status_code, data) := resp in
     if status_code =? 200 then
       ci <- lift (parse_commit data) ;;
       ret (Some ci)
     else if status_code =? 404 then
       log Error "branch not found" ;;; ret None
     else if status_code =? 403 then
       log Warning "API rate limit" ;;; ret None
     else
       log Error "API request failed" ;;; ret None)
    (fun e =>
       match e with
       | RequestException => Some (log Error "network request raised" ;;; ret None)
       | _ => None
       end).

Definition has_update_available : M (bool * option commit_info) :=
  t <- now ;;
  d <- get_ds ;;
  put_ds (mk_dstate (last_commit d) (update_count d) (Some t)) ;;;
  remote_commit_info <- get_remote_commit_info ;;
  match remote_commit_info with
  | None => ret (false, None)
  | Some info =>
      let remote_commit := sha info in
      local_commit <- get_local_commit ;;
      if negb (truthy local_commit) then
        log Warning "local commit unknown, skipping the check" ;;;
        ret (false, Some info)
      else if negb (json_eqb remote_commit local_commit) then
        _ <- lift (slice8 local_commit) ;;
        _ <- lift (slice8 remote_commit) ;;
        log Info "update detected" ;;;
        log Info "commit message" ;;;
        ret (true, Some info)
      else
        log Debug "no update detected" ;;;
        ret (false, Some info)
  end.

(** Where control goes after one pass of a retry loop's body. *)
Inductive flow : Type :=
| Break
| Return (b : bool)
| Continue.

Definition fetch_commands (c : settings) : list string :=
  ["git fetch origin"; "git checkout " ++ branch c; "git reset --hard origin/" ++ branch c].

Definition fetch_call (c : settings) (command : string) : call :=
  mk_call (Shell command) (Some (project_path c)) true (Some 60).

(** The except clauses of both retry loops. *)
Definition retry_handler (c : settings) (attempt : Z) (msg : string) : M flow :=
  log Error msg ;;;
  if attempt =? max_retries c - 1 then ret (Return false)
  else time_sleep (retry_delay c) ;;; ret Continue.

(** [for attempt in range(self.max_retries)] around one command of
    [fetch_latest_code]: [true] leaves the loop for the next command,
    [false] is its [return False]. *)
Fixpoint fetch_attempts (command : string) (attempt : Z) (fuel : nat) : M bool :=
  match fuel with
  | O => ret true
  | S k =>
      c <- get_cfg ;;
      fl <- try_except
              (log Info "running command" ;;;
               result <- subprocess_run (fetch_call c command) ;;
               log Debug "command output" ;;;
               (if negb (String.eqb (err result) "") then log Debug "command stderr"
                else ret tt) ;;;
               ret Break)
              (fun e =>
                 match e with
                 | CalledProcessError => Some (retry_handler c attempt "command failed")
                 | TimeoutExpired => Some (retry_handler c attempt "command timed out")
                 | _ => None
                 end) ;;
      match fl with
      | Break => ret true
      | Return b => ret b
      | Continue => fetch_attempts command (attempt + 1) k
      end
  end.

Fixpoint fetch_each (commands : list string) : M bool :=
  match commands with
  | [] => ret true
  | command :: rest =>
      c <- get_cfg ;;
      go_on <- fetch_attempts command 0 (Z.to_nat (max_retries c)) ;;
      if go_on then fetch_each rest else ret false
  end.

Definition fetch_latest_code : M bool :=
  c <- get_cfg ;;
  fetch_each (fetch_commands c).

Definition pip_call (c : settings) : call :=
  mk_call (Argv ["pip"; "install"; "-r"; "requirements.txt"]) (Some (project_path c)) true (Some 300).

(** The retry loop of [install_dependencies]; [None] is the Python [None]
    the function returns when the loop runs to its end. *)
Fixpoint install_attempts (attempt : Z) (fuel : nat) : M (option bool) :=
  match fuel with
  | O => ret None
  | S k =>
      c <- get_cfg ;;
      fl <- try_except
              (_ <- subprocess_run (pip_call c) ;;
               log Info "dependencies installed" ;;;
               log Debug "install output" ;;;
               ret (Return true))
              (fun e =>
                 match e with
                 | CalledProcessError => Some (retry_handler c attempt "dependency install failed")
                 | TimeoutExpired => Some (retry_handler c attempt "dependency install timed out")
                 | _ => None
                 end) ;;
      match fl with
      | Return b => ret (Some b)
      | Break => ret None
      | Continue => install_attempts (attempt + 1) k
      end
  end.

Definition install_dependencies : M (option bool) :=
  c <- get_cfg ;;
  present <- path_exists (path_join (project_path c) "requirements.txt") ;;
  if present then
    log Info "installing Python dependencies" ;;;
    install_attempts 0 (Z.to_nat (max_retries c))
  else
    log Info "no requirements.txt, skipping dependency install" ;;;
    ret (Some true).

(** Truthiness of True, False or None. *)
Definition truthy_opt (b : option bool) : bool :=
  match b with Some b => b | None => false end.

Record script : Type := mk_script {
  script_name : string;
  script_command : string;
  script_check_file : string
}.

Definition scripts : list script :=
  [mk_script "database migration" "python manage.py migrate" "manage.py";
   mk_script "static files" "python manage.py collectstatic --noinput" "manage.py";
   mk_script "unit tests" "python -m pytest tests/" "pytest.ini"].

Definition script_call (c : settings) (sc : script) : call :=
  mk_call (Shell (script_command sc)) (Some (project_path c)) true (Some 120).

Fixpoint run_scripts (l : list script) : M unit :=
  match l with
  | [] => ret tt
  | sc :: rest =>
      c <- get_cfg ;;
      present <- path_exists (path_join (project_path c) (script_check_file sc)) ;;
      (if present then
         log Info "running script" ;;;
         try_except
           (_ <- subprocess_run (script_call c sc) ;;
            log Info "script succeeded")
           (fun e =>
              match e with
              | CalledProcessError | TimeoutExpired => Some (log Warning "script failed")
              | _ => None
              end)
       else ret tt) ;;;
      run_scripts rest
  end.

Definition run_custom_scripts : M unit := run_scripts scripts.

Definition services : list string := ["myservice"; "nginx"; "gunicorn"].

Definition status_call (service : string) : call :=
  mk_call (Argv ["systemctl"; "status"; service]) None false None.

Definition restart_call (service : string) : call :=
  mk_call (Argv ["sudo"; "systemctl"; "restart"; service]) None true (Some 30).

Fixpoint restart_each (l : list string) : M unit :=
  match l with
  | [] => ret tt
  | service :: rest =>
      try_except
        (result <- subprocess_run (status_call service) ;;
         if returncode result =? 0 then
           log Info "restarting service" ;;;
           _ <- subprocess_run (restart_call service) ;;
           log Info "service restarted"
         else ret tt)
        (fun e =>
           match e with
           | CalledProcessError | TimeoutExpired => Some (log Error "service restart failed")
           | _ => None
           end) ;;;
      restart_each rest
  end.

Definition restart_application : M unit := restart_each services.

Definition backup_call (c : settings) (backup_dir : string) : call :=
  mk_call (Argv ["cp"; "-r"; project_path c; backup_dir]) None true None.

Definition create_backup : M bool :=
  c <- get_cfg ;;
  try_except
    (t <- now ;;
     timestamp <- strftime t ;;
     let backup_dir := "/backup/" ++ repo c ++ "_" ++ timestamp in
     log Info "creating backup" ;;;
     _ <- subprocess_run (backup_call c backup_dir) ;;
     ret true)
    (fun e => if is_Exception e then Some (log Error "backup failed" ;;; ret false) else None).

(** The first lines of [perform_update]: the opening log record and the
    best-effort backup. *)
Definition update_start : M unit :=
  log Info "starting the update" ;;;
  backed_up <- create_backup ;;
  if negb backed_up then log Warning "backup failed, continuing" else ret tt.

Definition perform_update (ci : commit_info) : M bool :=
  update_start ;;;
  fetched <- fetch_latest_code ;;
  if negb fetched then
    log Error "code update failed" ;;; ret false
  else
    installed <- install_dependencies ;;
    if negb (truthy_opt installed) then
      log Error "dependency install failed" ;;; ret false
    else
      run_custom_scripts ;;;
      restart_application ;;;
      d <- get_ds ;;
      put_ds (mk_dstate (sha ci) (update_count d) (last_check d)) ;;;
      d' <- get_ds ;;
      put_ds (mk_dstate (last_commit d') (update_count d' + 1) (last_check d')) ;;;
      log Info "update complete" ;;;
      ret true.

Definition send_notification (ci : commit_info) (success : bool) : M unit :=
  t <- now ;;
  _ <- strftime t ;;
  _ <- lift (slice8 (sha ci)) ;;
  log_notification ci success.

(** One pass of [while True] in [run]: [true] loops again, [false] is the
    [break] of the KeyboardInterrupt clause. *)
Definition run_cycle : M bool :=
  c <- get_cfg ;;
  try_except
    (hu <- has_update_available ;;
     let (has_update, commit_info) := hu in
     (match has_update, commit_info with
      | true, Some ci =>
          log Info "processing the update" ;;;
          success <- perform_update ci ;;
          send_notification ci success ;;;
          (if negb success then log Error "update failed, retrying at the next check"
           else ret tt)
      | _, _ => log Info "no newer version on GitHub"
      end) ;;;
     time_sleep (poll_interval c) ;;;
     ret true)
    (fun e =>
       match e with
       | KeyboardInterrupt => Some (log Info "interrupted, stopping" ;;; ret false)
       | _ => if is_Exception e
              then Some (log Error "main loop raised" ;;; time_sleep (poll_interval c) ;;; ret true)
              else None
       end).

(** [while True]: the loop never leaves on its own, so running out of
    [fuel] with the loop still going is a call that has not returned. *)
Fixpoint run_loop (fuel : nat) : M unit :=
  match fuel with
  | O => fun s => (Hang, s)
  | S k =>
      again <- run_cycle ;;
      if again then run_loop k else ret tt
  end.

Definition run (fuel : nat) : M unit :=
  log Info "updater started" ;;;
  log Info "watched repository" ;;;
  log Info "project path" ;;;
  log Info "poll interval" ;;;
  try_finally
    (try_except (run_loop fuel)
       (fun e => if is_Exception e then Some (log Error "run raised") else None))
    (log Info "updater stopped").

(** The dict of [load_config], after the user's file: keys read with
    [config.get] are optional. *)
Record config : Type := mk_config {
  cfg_owner : string;
  cfg_repo : string;
  cfg_branch : option string;
  cfg_project_path : string;
  cfg_poll_interval : option Z;
  cfg_github_token : option string;
  cfg_max_retries : option Z;
  cfg_retry_delay : option Z
}.

Definition get_or {A} (o : option A) (dflt : A) : A :=
  match o with Some a => a | None => dflt end.

Definition settings_of (conf : config) : settings :=
  mk_settings (cfg_owner conf) (cfg_repo conf) (get_or (cfg_branch conf) "main")
    (cfg_project_path conf) (get_or (cfg_poll_interval conf) 60)
    (cfg_github_token conf) (get_or (cfg_max_retries conf) 3)
    (get_or (cfg_retry_delay conf) 10).

Definition put_cfg (c : settings) : M unit :=
  fun s => (Ok tt, mk_st c (ds s) (env s)).

(** [__init__]: the attributes, then [last_commit = get_local_commit()],
    [update_count = 0], [last_check = None]. *)
Definition updater_init (conf : config) : M unit :=
  put_cfg (settings_of conf) ;;;
  lc <- get_local_commit ;;
  put_ds (mk_dstate lc 0 None).

Record args : Type := mk_args {
  arg_once : bool;
  arg_interval : option Z
}.

(** [main] from the loaded config on; [fuel] bounds the continuous loop. *)
Definition main (a : args) (conf : config) (fuel : nat) : M unit :=
  let conf' :=
    match arg_interval a with
    | Some i =>
        if i =? 0 then conf
        else mk_config (cfg_owner conf) (cfg_repo conf) (cfg_branch conf)
               (cfg_project_path conf) (Some i) (cfg_github_token conf)
               (cfg_max_retries conf) (cfg_retry_delay conf)
    | None => conf
    end in
  updater_init conf' ;;;
  if arg_once a then
    hu <- has_update_available ;;
    let (has_update, commit_info) := hu in
    if has_update then
      match commit_info with
      | Some ci =>
          print "update detected" ;;;
          _ <- perform_update ci ;;
          ret tt
      | None => raise TypeError
      end
    else print "no update detected"
  else run fuel.

(** ** Concrete inputs *)

(** A branch-metadata body as the GitHub API returns it. *)
Definition branch_body (hash : string) : json :=
  JObj [("name", JStr "main");
        ("commit", JObj [("sha", JStr hash);
                         ("commit", JObj [("message", JStr "fix");
                                          ("author", JObj [("name", JStr "dev");
                                                           ("date", JStr "2024-01-01T00:00:00Z")])]);
                         ("html_url", JStr "https://github.com/zhizhi1hao/test/commit")])].

Definition sample_settings : settings :=
  mk_settings "zhizhi1hao" "test" "main" "/home/admin/test" 300 None 3 10.

Definition sample_ds (local : string) : dstate := mk_dstate (JStr local) 0 None.

Fixpoint strings_eqb (xs ys : list string) : bool :=
  match xs, ys with
  | [], [] => true
  | x :: xs', y :: ys' => String.eqb x y && strings_eqb xs' ys'
  | _, _ => false
  end.

Definition cmd_eqb (a b : cmd) : bool :=
  match a, b with
  | Shell x, Shell y => String.eqb x y
  | Argv xs, Argv ys => strings_eqb xs ys
  | _, _ => false
  end.

(** Every launch exits 0; [git rev-parse HEAD] prints [local]. *)
Definition all_ok_procs (local : string) : nat -> call -> proc_outcome :=
  fun _ c => if cmd_eqb (c_cmd c) (Argv ["git"; "rev-parse"; "HEAD"])
             then PExit 0 (local ++ String (ascii_of_nat 10) "") ""
             else PExit 0 "" "".

Definition sample_world (procs : nat -> call -> proc_outcome) (http : http_outcome)
  (files : list string) : world :=
  mk_world procs 0 (fun _ => http) 0
    (fun p => existsb (String.eqb p) files) 1000 (fun _ => "20240101_000000") [].

Definition sample_st (local : string) (procs : nat -> call -> proc_outcome)
  (http : http_outcome) (files : list string) : st :=
  mk_st sample_settings (sample_ds local) (sample_world procs http files).

(** The sleeps of a trace. *)
Definition sleeps (tr : list event) : list event :=
  filter (fun e => match e with ESleep _ => true | _ => false end) tr.

Definition is_notify (e : event) : bool :=
  match e with ENotify _ _ => true | _ => false end.

(** Scenario A: GitHub reports the local commit, nothing to do. *)
Definition scenario_a : st :=
  sample_st "abc123" (all_ok_procs "abc123") (HResp 200 (branch_body "abc123")) [].

(** Scenario B: local "abc123", remote "def456", no requirements.txt,
    every command exits 0. *)
Definition scenario_b : st :=
  sample_st "abc123" (all_ok_procs "abc123") (HResp 200 (branch_body "def456")) [].

(** A host without [systemctl]: launching it raises FileNotFoundError. *)
Definition no_systemctl (local : string) : nat -> call -> proc_outcome :=
  fun n c => if cmd_eqb (c_cmd c) (c_cmd (status_call "myservice")) then PNotFound
             else all_ok_procs local n c.

Definition scenario_c : st :=
  sample_st "abc123" (no_systemctl "abc123") (HResp 200 (branch_body "def456")) [].

(** [load_config()] without a config file. *)
Definition sample_config : config :=
  mk_config "zhizhi1hao" "test" (Some "main") "/home/admin/test" (Some 300) None None None.

(** ** Helpers of the statements *)

(** The answer GitHub gives to the next request. *)
Definition http_answer (s : st) : http_outcome := w_http (env s) (w_nhttp (env s)).

(** The answer to the next [git rev-parse HEAD]. *)
Definition local_answer (s : st) : proc_outcome :=
  w_proc (env s) (w_nproc (env s)) (git_rev_parse (project_path (cfg s))).

(** The state [has_update_available] queries from: [last_check] set. *)
Definition checked (s : st) : st :=
  set_ds (mk_dstate (last_commit (ds s)) (update_count (ds s)) (Some (w_clock (env s)))) s.


(** The remote query fails: a network error or a status other than 200. *)
Definition remote_fails (s : st) : Prop :=
  http_answer s = HNetErr \/ exists code body, http_answer s = HResp code body /\ code <> 200.


(** The descriptor [parse_commit] reads from [branch_body hash]. *)
Definition sample_commit (hash : string) : commit_info :=
  mk_commit_info (JStr hash) (JStr "fix") (JStr "dev") (JStr "2024-01-01T00:00:00Z")
    (JStr "https://github.com/zhizhi1hao/test/commit").

(** A 200 body whose commit has no [html_url]. *)
Definition body_without_url : json :=
  JObj [("commit", JObj [("sha", JStr "def456");
                         ("commit", JObj [("message", JStr "fix");
                                          ("author", JObj [("name", JStr "dev");
                                                           ("date", JStr "2024-01-01T00:00:00Z")])])])].


(** A launch that the retry loops count as a failure: a non-zero exit
    (CalledProcessError) or an overrun (TimeoutExpired). *)
Definition failing (o : proc_outcome) : bool :=
  match o with
  | PExit code _ _ => negb (code =? 0)
  | POverran => true
  | PNotFound => false
  end.

(** The launches and sleeps of a trace. *)
Definition runs_and_sleeps (tr : list event) : list event :=
  filter (fun e => match e with ERun _ | ESleep _ => true | _ => false end) tr.

(** [n] launches of [c] with a sleep of [d] between consecutive ones. *)
Fixpoint retry_pattern (c : call) (d : Z) (n : nat) : list event :=
  match n with
  | O => []
  | S O => [ERun c]
  | S k => ERun c :: ESleep d :: retry_pattern c d k
  end.

(** Scenario D: [git checkout main] fails on every attempt. *)
Definition checkout_fails : nat -> call -> proc_outcome :=
  fun _ c => if cmd_eqb (c_cmd c) (Shell "git checkout main") then PExit 1 "" "error"
             else PExit 0 "" "".

Definition scenario_d : st :=
  sample_st "abc123" checkout_fails (HResp 200 (branch_body "def456")) [].



(** ** Helpers of the further statements *)

(** The answer to the [cp -r] of [create_backup], whose target directory
    is named after the repository and the current time. *)
Definition backup_answer (s : st) : proc_outcome :=
  w_proc (env s) (w_nproc (env s))
    (backup_call (cfg s) ("/backup/" ++ repo (cfg s) ++ "_" ++ w_strftime (env s) (w_clock (env s)))).


(** The launches of [run_scripts l]: the scripts whose check file exists. *)
Definition script_runs (s : st) (l : list script) : list event :=
  map (fun sc => ERun (script_call (cfg s) sc))
    (filter (fun sc => w_exists (env s) (path_join (project_path (cfg s)) (script_check_file sc))) l).

(** The launches of [restart_each l] when [systemctl status] of each
    service exits with [code service]. *)
Definition restart_runs (code : string -> Z) (l : list string) : list event :=
  flat_map (fun service =>
    ERun (status_call service) ::
    (if Z.eqb (code service) 0 then [ERun (restart_call service)] else [])) l.


(** The first launch exits 1, every later one exits 0. *)
Definition fails_once : nat -> call -> proc_outcome :=
  fun n _ => if Nat.eqb n 0 then PExit 1 "" "error" else PExit 0 "" "".

Definition flaky_st : st :=
  sample_st "abc123" fails_once (HResp 200 (branch_body "def456"))
    ["/home/admin/test/requirements.txt"].

(** No program can be found on the host. *)
Definition no_programs : nat -> call -> proc_outcome := fun _ _ => PNotFound.

Definition bare_st : st :=
  sample_st "abc123" no_programs (HResp 200 (branch_body "def456"))
    ["/home/admin/test/requirements.txt"].

(** A configuration with [max_retries = 0]. *)
Definition no_retry_st : st :=
  mk_st (mk_settings "zhizhi1hao" "test" "main" "/home/admin/test" 300 None 0 10)
    (sample_ds "abc123")
    (sample_world (all_ok_procs "abc123") (HResp 200 (branch_body "def456"))
       ["/home/admin/test/requirements.txt"]).

(** A Django project tree: manage.py present, no pytest.ini. *)
Definition django_st : st :=
  sample_st "abc123" (all_ok_procs "abc123") (HResp 200 (branch_body "def456"))
    ["/home/admin/test/manage.py"].


(** ** Frame: what a step leaves alone *)

(** The settings, the updater's mutable attributes and the answers of the
    environment are the same; only counters, clock and trace moved. *)
Definition stable (s s' : st) : Prop :=
  cfg s' = cfg s /\ ds s' = ds s /\
  w_proc (env s') = w_proc (env s) /\ w_http (env s') = w_http (env s) /\
  w_exists (env s') = w_exists (env s) /\ w_strftime (env s') = w_strftime (env s).

Definition keeps {A} (m : M A) : Prop := forall s, stable s (snd (m s)).

Lemma pytime_overflow_false n :
  -9223372036 <= n <= 9223372036 -> pytime_overflow n = false.
Proof.
  intro H; unfold pytime_overflow.
  rewrite (proj2 (Z.ltb_ge _ _)), (proj2 (Z.ltb_ge _ _)) by lia; reflexivity.
Qed.

Lemma stable_refl s : stable s s.
Proof. repeat split. Qed.

Lemma stable_trans s1 s2 s3 : stable s1 s2 -> stable s2 s3 -> stable s1 s3.
Proof.
  unfold stable; intros (? & ? & ? & ? & ? & ?) (? & ? & ? & ? & ? & ?).
  repeat split; congruence.
Qed.

Lemma keeps_ret {A} (a : A) : keeps (ret a).
Proof. intro s; apply stable_refl. Qed.

Lemma keeps_raise {A} (e : exn) : keeps (@raise A e).
Proof. intro s; apply stable_refl. Qed.

Lemma keeps_hang {A} : keeps (fun s => (@Hang A, s)).
Proof. intro s; apply stable_refl. Qed.

Lemma keeps_bind {A B} (m : M A) (k : A -> M B) :
  keeps m -> (forall a, keeps (k a)) -> keeps (bind m k).
Proof.
  intros Hm Hk s; unfold bind.
  specialize (Hm s); destruct (m s) as [[a | e | ] s'] eqn:E; cbn in *; auto.
  eapply stable_trans; [exact Hm | apply Hk].
Qed.

Lemma keeps_try_except {A} (m : M A) (h : exn -> option (M A)) :
  keeps m -> (forall e, match h e with Some k => keeps k | None => True end) ->
  keeps (try_except m h).
Proof.
  intros Hm Hh s; unfold try_except.
  specialize (Hm s); destruct (m s) as [[a | e | ] s'] eqn:E; cbn in *; auto.
  specialize (Hh e); destruct (h e); cbn; auto.
  eapply stable_trans; [exact Hm | apply Hh].
Qed.

Lemma keeps_try_finally {A} (m : M A) (fin : M unit) :
  keeps m -> keeps fin -> keeps (try_finally m fin).
Proof.
  intros Hm Hf s; unfold try_finally.
  specialize (Hm s); destruct (m s) as [[a | e | ] s'] eqn:E; cbn in *; auto;
    specialize (Hf s'); destruct (fin s') as [[] s''];
    cbn in *; eapply stable_trans; eauto.
Qed.

Lemma keeps_lift {A} (r : A + exn) : keeps (lift r).
Proof. destruct r; intro s; apply stable_refl. Qed.

Lemma keeps_get_cfg : keeps get_cfg.
Proof. intro s; apply stable_refl. Qed.

Lemma keeps_get_ds : keeps get_ds.
Proof. intro s; apply stable_refl. Qed.

Lemma keeps_log lvl msg : keeps (log lvl msg).
Proof. intro s; repeat split. Qed.

Lemma keeps_print msg : keeps (print msg).
Proof. intro s; repeat split. Qed.

Lemma keeps_log_notification ci b : keeps (log_notification ci b).
Proof. intro s; repeat split. Qed.

Lemma keeps_now : keeps now.
Proof. intro s; apply stable_refl. Qed.

Lemma keeps_strftime t : keeps (strftime t).
Proof. intro s; apply stable_refl. Qed.

Lemma keeps_path_exists p : keeps (path_exists p).
Proof. intro s; apply stable_refl. Qed.

Lemma keeps_time_sleep n : keeps (time_sleep n).
Proof. intro s; unfold time_sleep; destruct (pytime_overflow n); [ | destruct (n <? 0)]; repeat split. Qed.

Lemma keeps_subprocess_run c : keeps (subprocess_run c).
Proof.
  intro s; unfold subprocess_run.
  destruct (w_proc _ _ _) as [code o e | | ]; [destruct (_ && _) | destruct (c_timeout c) | ];
    repeat split.
Qed.

Lemma keeps_requests_get u : keeps (requests_get u).
Proof. intro s; unfold requests_get; destruct (w_http _ _); repeat split. Qed.

Create HintDb keeps.
#[export] Hint Resolve keeps_ret keeps_raise keeps_hang keeps_lift keeps_get_cfg
  keeps_get_ds keeps_log keeps_print keeps_log_notification keeps_now keeps_strftime
  keeps_path_exists keeps_time_sleep keeps_subprocess_run keeps_requests_get : keeps.

(** Walks through binds, handlers and branches of a step. *)
Ltac keeps_tac :=
  repeat match goal with
  | |- keeps (bind _ _) => apply keeps_bind; [ | intros ? ]
  | |- keeps (try_except _ _) => apply keeps_try_except; [ | intros [] ]
  | |- keeps (try_finally _ _) => apply keeps_try_finally
  | |- keeps (if ?b then _ else _) => destruct b
  | |- keeps (match ?x with _ => _ end) => destruct x
  | |- match (if ?b then _ else _) with _ => _ end => destruct b
  | |- match ?x with _ => _ end => progress cbn
  | |- True => exact I
  | |- keeps _ => solve [ eauto with keeps ]
  end.

Lemma keeps_retry_handler c a msg : keeps (retry_handler c a msg).
Proof. unfold retry_handler; keeps_tac. Qed.
#[export] Hint Resolve keeps_retry_handler : keeps.

Lemma keeps_get_local_commit : keeps get_local_commit.
Proof. unfold get_local_commit; keeps_tac. Qed.

Lemma keeps_get_remote_commit_info : keeps get_remote_commit_info.
Proof. unfold get_remote_commit_info; keeps_tac. Qed.

Lemma keeps_fetch_attempts command a k : keeps (fetch_attempts command a k).
Proof.
  revert a; induction k as [ | k IH]; intro a; cbn [fetch_attempts]; keeps_tac.
Qed.
#[export] Hint Resolve keeps_fetch_attempts : keeps.

Lemma keeps_fetch_each l : keeps (fetch_each l).
Proof. induction l; cbn [fetch_each]; keeps_tac. Qed.
#[export] Hint Resolve keeps_fetch_each : keeps.

Lemma keeps_fetch_latest_code : keeps fetch_latest_code.
Proof. unfold fetch_latest_code; keeps_tac. Qed.

Lemma keeps_install_attempts a k : keeps (install_attempts a k).
Proof.
  revert a; induction k as [ | k IH]; intro a; cbn [install_attempts]; keeps_tac.
Qed.
#[export] Hint Resolve keeps_install_attempts : keeps.

Lemma keeps_install_dependencies : keeps install_dependencies.
Proof. unfold install_dependencies; keeps_tac. Qed.

Lemma keeps_run_scripts l : keeps (run_scripts l).
Proof. induction l; cbn [run_scripts]; keeps_tac. Qed.
#[export] Hint Resolve keeps_run_scripts : keeps.

Lemma keeps_run_custom_scripts : keeps run_custom_scripts.
Proof. unfold run_custom_scripts; keeps_tac. Qed.

Lemma keeps_restart_each l : keeps (restart_each l).
Proof. induction l; cbn [restart_each]; keeps_tac. Qed.
#[export] Hint Resolve keeps_restart_each : keeps.

Lemma keeps_restart_application : keeps restart_application.
Proof. unfold restart_application; keeps_tac. Qed.

Lemma keeps_create_backup : keeps create_backup.
Proof. unfold create_backup; keeps_tac. Qed.
#[export] Hint Resolve keeps_get_local_commit keeps_get_remote_commit_info
  keeps_fetch_latest_code keeps_install_dependencies keeps_run_custom_scripts
  keeps_restart_application keeps_create_backup : keeps.

Lemma keeps_update_start : keeps update_start.
Proof. unfold update_start; keeps_tac. Qed.

Lemma keeps_send_notification ci b : keeps (send_notification ci b).
Proof. unfold send_notification; keeps_tac. Qed.
#[export] Hint Resolve keeps_update_start keeps_send_notification : keeps.

(** ** The remote query and the comparison *)

Lemma get_remote_net_error s :
  http_answer s = HNetErr ->
  get_remote_commit_info s =
  (Ok None, set_env (emit (ELog Error "network request raised")
                       (mk_world (w_proc (env s)) (w_nproc (env s)) (w_http (env s))
                          (S (w_nhttp (env s))) (w_exists (env s)) (w_clock (env s))
                          (w_strftime (env s)) (w_trace (env s) ++ [EHttp (branch_url (cfg s))]))) s).
Proof.
  unfold http_answer; intro H.
  unfold get_remote_commit_info, try_except, bind, get_cfg, requests_get; cbn.
  rewrite H; reflexivity.
Qed.

Lemma get_remote_status s code body :
  http_answer s = HResp code body -> code <> 200 ->
  fst (get_remote_commit_info s) = Ok None.
Proof.
  unfold http_answer; intros H H200.
  unfold get_remote_commit_info, try_except, bind, get_cfg, requests_get; cbn.
  rewrite H. apply Z.eqb_neq in H200; rewrite H200.
  destruct (code =? 404), (code =? 403); reflexivity.
Qed.

Lemma get_remote_ok s body :
  http_answer s = HResp 200 body ->
  fst (get_remote_commit_info s) =
  match parse_commit body with
  | inl d => Ok (Some d)
  | inr RequestException => Ok None
  | inr e => Raise e
  end.
Proof.
  unfold http_answer; intro H.
  unfold get_remote_commit_info, try_except, bind, get_cfg, requests_get; cbn.
  rewrite H; cbn.
  destruct (parse_commit body) as [d | []]; reflexivity.
Qed.

Lemma http_answer_checked s : http_answer (checked s) = http_answer s.
Proof. reflexivity. Qed.

Lemma has_update_remote s :
  has_update_available s =
  bind get_remote_commit_info
    (fun remote_commit_info =>
       match remote_commit_info with
       | None => ret (false, None)
       | Some info =>
           local_commit <- get_local_commit ;;
           if negb (truthy local_commit) then
             log Warning "local commit unknown, skipping the check" ;;;
             ret (false, Some info)
           else if negb (json_eqb (sha info) local_commit) then
             _ <- lift (slice8 local_commit) ;;
             _ <- lift (slice8 (sha info)) ;;
             log Info "update detected" ;;;
             log Info "commit message" ;;;
             ret (true, Some info)
           else
             log Debug "no update detected" ;;;
             ret (false, Some info)
       end) (checked s).
Proof. reflexivity. Qed.

Lemma bind_ok {A B} (m : M A) (k : A -> M B) s a :
  fst (m s) = Ok a -> bind m k s = k a (snd (m s)).
Proof. unfold bind; destruct (m s) as [r s']; cbn; intros ->; reflexivity. Qed.

Lemma bind_raise {A B} (m : M A) (k : A -> M B) s e :
  fst (m s) = Raise e -> fst (bind m k s) = Raise e.
Proof. unfold bind; destruct (m s) as [r s']; cbn; intros ->; reflexivity. Qed.

Lemma bind_hang {A B} (m : M A) (k : A -> M B) s :
  fst (m s) = Hang -> fst (bind m k s) = Hang.
Proof. unfold bind; destruct (m s) as [r s']; cbn; intros ->; reflexivity. Qed.

Lemma getitem_error j k e : getitem j k = inr e -> e = KeyError \/ e = TypeError.
Proof.
  intro H; destruct j; cbn in H; try (inversion H; auto; fail).
  destruct (find _ _) as [[] | ]; inversion H; auto.
Qed.

Lemma parse_commit_error body e :
  parse_commit body = inr e -> e = KeyError \/ e = TypeError.
Proof.
  unfold parse_commit, sbind.
  repeat match goal with
         | |- context [getitem ?j ?k] =>
             let E := fresh "E" in destruct (getitem j k) eqn:E
         end;
  intro H; inversion H; subst; eauto using getitem_error.
Qed.




Lemma has_update_remote_none s :
  fst (get_remote_commit_info (checked s)) = Ok None ->
  fst (has_update_available s) = Ok (false, None).
Proof. intro H; rewrite has_update_remote, (bind_ok _ _ _ _ H); reflexivity. Qed.

Lemma has_update_remote_raise s e :
  fst (get_remote_commit_info (checked s)) = Raise e ->
  fst (has_update_available s) = Raise e.
Proof. intro H; rewrite has_update_remote; exact (bind_raise _ _ _ _ H). Qed.



Lemma remote_fails_get s :
  remote_fails s -> fst (get_remote_commit_info (checked s)) = Ok None.
Proof.
  intros [H | (code & body & H & Hc)].
  - rewrite (get_remote_net_error (checked s) H); reflexivity.
  - exact (get_remote_status (checked s) code body H Hc).
Qed.


(** ** Claims about the remote query and the comparison *)

(** C3 (amended): a non-200 status (404, 403 or any other) and a network
    failure make [get_remote_commit_info] return None without raising, and
    [has_update_available] then returns (False, None); a 200 body that lacks
    a required field makes the lookup raise KeyError (TypeError when a
    level is not an object), which propagates out of both. *)
Theorem remote_failures_degrade (s : st) :
  (forall code body, http_answer s = HResp code body -> code <> 200 ->
     fst (get_remote_commit_info s) = Ok None /\
     fst (has_update_available s) = Ok (false, None)) /\
  (http_answer s = HNetErr ->
     fst (get_remote_commit_info s) = Ok None /\
     fst (has_update_available s) = Ok (false, None)) /\
  (forall body e, http_answer s = HResp 200 body -> parse_commit body = inr e ->
     (e = KeyError \/ e = TypeError) /\
     fst (get_remote_commit_info s) = Raise e /\
     fst (has_update_available s) = Raise e).
Proof.
  split; [ | split].
  - intros code body H Hc; split.
    + exact (get_remote_status s code body H Hc).
    + apply has_update_remote_none, remote_fails_get; right; eauto.
  - intro H; split.
    + rewrite (get_remote_net_error s H); reflexivity.
    + apply has_update_remote_none, remote_fails_get; left; exact H.
  - intros body e H Hp.
    pose proof (parse_commit_error body e Hp) as He.
    assert (Hr : forall s', http_answer s' = HResp 200 body ->
                   fst (get_remote_commit_info s') = Raise e).
    { intros s' H'; rewrite (get_remote_ok s' body H'), Hp.
      destruct He as [-> | ->]; reflexivity. }
    split; [exact He | split].
    + exact (Hr s H).
    + apply has_update_remote_raise, Hr; exact H.
Qed.


(** C10: for a status other than 200, 404 and 403,
    [get_remote_commit_info] logs an error and returns None, and
    [has_update_available] returns (False, None). *)
Theorem other_status_logs_and_degrades (s : st) (code : Z) (body : json) :
  http_answer s = HResp code body -> code <> 200 -> code <> 404 -> code <> 403 ->
  fst (get_remote_commit_info s) = Ok None /\
  w_trace (env (snd (get_remote_commit_info s))) =
    (w_trace (env s) ++ [EHttp (branch_url (cfg s)); ELog Error "API request failed"])%list /\
  fst (has_update_available s) = Ok (false, None).
Proof.
  intros H H200 H404 H403.
  apply Z.eqb_neq in H200, H404, H403.
  split; [ | split].
  - unfold http_answer in H.
    unfold get_remote_commit_info, try_except, bind, get_cfg, requests_get; cbn.
    rewrite H, H200, H404, H403; reflexivity.
  - unfold http_answer in H.
    unfold get_remote_commit_info, try_except, bind, get_cfg, requests_get; cbn.
    rewrite H, H200, H404, H403; cbn.
    rewrite <- app_assoc; reflexivity.
  - apply has_update_remote_none, remote_fails_get; right.
    exists code, body; split; [exact H | apply Z.eqb_neq; exact H200].
Qed.

(** ** Witnesses and counterexamples for the remote query *)

Lemma remote_failures_degrade_witness :
  let s := sample_st "abc123" (all_ok_procs "abc123") (HResp 404 JNull) [] in
  http_answer s = HResp 404 JNull /\ fst (has_update_available s) = Ok (false, None).
Proof.
  cbv zeta; split; [reflexivity | ].
  refine (proj2 (proj1 (remote_failures_degrade _) 404 JNull _ _)); [reflexivity | lia].
Defined.

(** C3 as stated fails: a 200 response whose body lacks [html_url] makes
    both calls raise KeyError instead of returning None. *)
Lemma missing_field_raises :
  let s := sample_st "abc123" (all_ok_procs "abc123") (HResp 200 body_without_url) [] in
  fst (get_remote_commit_info s) = Raise KeyError /\
  fst (has_update_available s) = Raise KeyError.
Proof. split; reflexivity. Qed.



Lemma other_status_logs_and_degrades_witness :
  let s := sample_st "abc123" (all_ok_procs "abc123") (HResp 500 JNull) [] in
  http_answer s = HResp 500 JNull /\ fst (has_update_available s) = Ok (false, None).
Proof.
  cbv zeta; split; [reflexivity | ].
  refine (proj2 (proj2 (other_status_logs_and_degrades _ 500 JNull _ _ _ _)));
    [reflexivity | lia | lia | lia].
Defined.

(** ** Retries *)



(** [fetch_latest_code] returns False only through the [return False] of
    some command's retry loop. *)
Lemma fetch_each_false l : forall s s2,
  fetch_each l s = (Ok false, s2) ->
  exists command s', In command l /\
    fetch_attempts command 0 (Z.to_nat (max_retries (cfg s'))) s' = (Ok false, s2).
Proof.
  induction l as [ | command rest IH]; intros s s2 H; cbn [fetch_each] in H.
  - discriminate.
  - unfold bind at 1, get_cfg in H.
    unfold bind in H.
    destruct (fetch_attempts command 0 (Z.to_nat (max_retries (cfg s))) s)
      as [[[ | ] | | ] s1] eqn:E; try discriminate.
    + destruct (IH s1 s2 H) as (c' & s' & Hin & Hrun).
      exists c', s'; split; [right; exact Hin | exact Hrun].
    + cbn in H; inversion H; subst.
      exists command, s; split; [left; reflexivity | exact E].
Qed.

(** ** Claims about the pipeline *)

(** C2: when the code-sync stage fails (a command exhausted its retries,
    see [fetch_each_false]), [perform_update] returns False right after
    logging the failure: no later stage launches anything, and the
    deployment attributes are those before the run. *)
Theorem sync_failure_aborts (ci : commit_info) (s : st) :
  fst (update_start s) = Ok tt ->
  fst (fetch_latest_code (snd (update_start s))) = Ok false ->
  let s2 := snd (fetch_latest_code (snd (update_start s))) in
  perform_update ci s = (Ok false, set_env (emit (ELog Error "code update failed") (env s2)) s2) /\
  ds s2 = ds s.
Proof.
  intros H1 H2; cbv zeta; split.
  - unfold perform_update, bind.
    destruct (update_start s) as [r1 s1]; cbn [fst snd] in *; subst r1.
    destruct (fetch_latest_code s1) as [r2 s2]; cbn [fst snd] in *; subst r2.
    reflexivity.
  - destruct (keeps_update_start s) as (_ & Hd1 & _).
    destruct (keeps_fetch_latest_code (snd (update_start s))) as (_ & Hd2 & _).
    congruence.
Qed.


(** ** Witnesses for the pipeline claims *)

Lemma sync_failure_aborts_witness :
  fst (update_start scenario_d) = Ok tt /\
  fst (fetch_latest_code (snd (update_start scenario_d))) = Ok false /\
  fst (perform_update (sample_commit "def456") scenario_d) = Ok false /\
  ds (snd (fetch_latest_code (snd (update_start scenario_d)))) = ds scenario_d.
Proof.
  assert (H1 : fst (update_start scenario_d) = Ok tt) by (vm_compute; reflexivity).
  assert (H2 : fst (fetch_latest_code (snd (update_start scenario_d))) = Ok false)
    by (vm_compute; reflexivity).
  destruct (sync_failure_aborts (sample_commit "def456") scenario_d H1 H2) as [Hp Hd].
  split; [exact H1 | split; [exact H2 | split; [rewrite Hp; reflexivity | exact Hd]]].
Defined.



(** ** The pipeline stages and the deployment attributes *)

(** Without a requirements.txt the install stage logs and returns True. *)
Lemma install_without_manifest (s : st) :
  w_exists (env s) (path_join (project_path (cfg s)) "requirements.txt") = false ->
  install_dependencies s =
    (Ok (Some true),
     set_env (emit (ELog Info "no requirements.txt, skipping dependency install") (env s)) s).
Proof.
  intro H; unfold install_dependencies, bind, get_cfg, path_exists; cbn beta iota.
  rewrite H; reflexivity.
Qed.

(** [has_update_available] writes [last_check] before anything else; the
    queries that follow leave the attributes alone. *)
Lemma has_update_available_ds (s : st) :
  ds (snd (has_update_available s)) =
    mk_dstate (last_commit (ds s)) (update_count (ds s)) (Some (w_clock (env s))).
Proof.
  unfold has_update_available; unfold bind at 1 2 3; unfold now, get_ds, put_ds.
  cbn -[bind get_remote_commit_info get_local_commit].
  match goal with
  | |- ds (snd (?m ?s0)) = _ =>
      assert (H : keeps m) by keeps_tac; destruct (H s0) as (_ & Hd & _); rewrite Hd
  end.
  reflexivity.
Qed.

(** The attributes after [perform_update]: written (commit recorded, count
    increased) exactly when it returns True, untouched otherwise. *)
Lemma perform_update_ds (ci : commit_info) (s : st) :
  (fst (perform_update ci s) = Ok true /\
   ds (snd (perform_update ci s)) =
     mk_dstate (sha ci) (update_count (ds s) + 1) (last_check (ds s))) \/
  (fst (perform_update ci s) <> Ok true /\ ds (snd (perform_update ci s)) = ds s).
Proof.
  unfold perform_update, bind.
  destruct (keeps_update_start s) as (_ & D1 & _).
  destruct (update_start s) as [[[] | e | ] s1]; cbn [fst snd] in *;
    [ | right; split; [discriminate | exact D1] .. ].
  destruct (keeps_fetch_latest_code s1) as (_ & D2 & _).
  destruct (fetch_latest_code s1) as [[[ | ] | e | ] s2]; cbn [fst snd negb] in *;
    [ | right; split; [discriminate | cbn; congruence] .. ].
  destruct (keeps_install_dependencies s2) as (_ & D3 & _).
  destruct (install_dependencies s2) as [[b | e | ] s3]; cbn [fst snd] in *;
    [ | right; split; [discriminate | congruence] .. ].
  destruct (truthy_opt b); cbn [negb];
    [ | right; split; [discriminate | cbn; congruence] ].
  destruct (keeps_run_custom_scripts s3) as (_ & D4 & _).
  destruct (run_custom_scripts s3) as [[[] | e | ] s4]; cbn [fst snd] in *;
    [ | right; split; [discriminate | congruence] .. ].
  destruct (keeps_restart_application s4) as (_ & D5 & _).
  destruct (restart_application s4) as [[[] | e | ] s5]; cbn [fst snd] in *;
    [ | right; split; [discriminate | congruence] .. ].
  left; split; [reflexivity | cbn; congruence].
Qed.

(** C1 (the code diverges): on a host without [systemctl], with code sync
    and dependency install both succeeding, [restart_application] lets the
    FileNotFoundError of [systemctl status] escape, so [perform_update]
    raises: it does not return True and the deployment attributes keep
    the old commit. *)
Theorem restart_not_found_blocks_advance :
  let s0 := snd (has_update_available scenario_c) in
  let s1 := snd (update_start s0) in
  let s2 := snd (fetch_latest_code s1) in
  fst (has_update_available scenario_c) = Ok (true, Some (sample_commit "def456")) /\
  fst (update_start s0) = Ok tt /\
  fst (fetch_latest_code s1) = Ok true /\
  fst (install_dependencies s2) = Ok (Some true) /\
  fst (perform_update (sample_commit "def456") s0) = Raise FileNotFoundError /\
  ds (snd (perform_update (sample_commit "def456") s0)) = ds s0 /\
  last_commit (ds s0) = JStr "abc123".
Proof. cbv zeta; repeat split; vm_compute; reflexivity. Qed.


(** C6 (corrected): [last_check] is written by every
    [has_update_available] call, with the current time; [last_commit] and
    [update_count] only by [perform_update] when it returns True; a
    failed or aborted update, the notification and the two commit queries
    write nothing. *)
Theorem deployment_state_writes (s : st) (ci : commit_info) :
  ds (snd (has_update_available s)) =
    mk_dstate (last_commit (ds s)) (update_count (ds s)) (Some (w_clock (env s))) /\
  (fst (perform_update ci s) = Ok true ->
   ds (snd (perform_update ci s)) =
     mk_dstate (sha ci) (update_count (ds s) + 1) (last_check (ds s))) /\
  (fst (perform_update ci s) <> Ok true -> ds (snd (perform_update ci s)) = ds s) /\
  (forall b, ds (snd (send_notification ci b s)) = ds s) /\
  ds (snd (get_remote_commit_info s)) = ds s /\
  ds (snd (get_local_commit s)) = ds s.
Proof.
  split; [apply has_update_available_ds | ].
  split; [ | split; [ | split; [ | split]]].
  - intro H; destruct (perform_update_ds ci s) as [[_ E] | [N _]]; [exact E | contradiction].
  - intro H; destruct (perform_update_ds ci s) as [[E _] | [_ E]]; [contradiction | exact E].
  - intro b; apply (keeps_send_notification ci b s).
  - apply keeps_get_remote_commit_info.
  - apply keeps_get_local_commit.
Qed.

(** C7 (the code diverges): [main --once] with an update pending runs
    [perform_update] and stops there: no update notification is emitted,
    where a pass of the continuous loop on the same state emits it. *)
Theorem once_mode_skips_notification :
  let s' := snd (main (mk_args true None) sample_config 0 scenario_b) in
  fst (main (mk_args true None) sample_config 0 scenario_b) = Ok tt /\
  last_commit (ds s') = JStr "def456" /\
  sleeps (w_trace (env s')) = [] /\
  existsb is_notify (w_trace (env s')) = false /\
  existsb is_notify (w_trace (env (snd (run_cycle scenario_b)))) = true.
Proof. cbv zeta; repeat split; vm_compute; reflexivity. Qed.

(** C9: without a requirements.txt the install stage returns True and
    launches nothing; in scenario B (local "abc123", remote "def456", no
    requirements.txt) the update succeeds and records "def456". *)
Theorem no_manifest_pipeline :
  (forall s : st,
     w_exists (env s) (path_join (project_path (cfg s)) "requirements.txt") = false ->
     install_dependencies s =
       (Ok (Some true),
        set_env (emit (ELog Info "no requirements.txt, skipping dependency install") (env s)) s)) /\
  fst (has_update_available scenario_b) = Ok (true, Some (sample_commit "def456")) /\
  fst (perform_update (sample_commit "def456") (snd (has_update_available scenario_b))) = Ok true /\
  last_commit (ds (snd (perform_update (sample_commit "def456")
                          (snd (has_update_available scenario_b))))) = JStr "def456" /\
  ds (snd (run_cycle scenario_b)) = mk_dstate (JStr "def456") 1 (Some 1000).
Proof.
  split; [exact install_without_manifest | repeat split; vm_compute; reflexivity].
Qed.

(** ** Witnesses and counterexamples for the loop and the attributes *)



(** C6: a poll that finds no update changes [last_check]. *)
Lemma poll_sets_last_check :
  fst (has_update_available scenario_a) = Ok (false, Some (sample_commit "abc123")) /\
  ds scenario_a = mk_dstate (JStr "abc123") 0 None /\
  ds (snd (run_cycle scenario_a)) = mk_dstate (JStr "abc123") 0 (Some 1000).
Proof. split; [ | split]; vm_compute; reflexivity. Qed.

(** ** More of the updater: the stages on their own *)

(** X1 (get_local_commit): [git rev-parse HEAD] exiting 0 gives its
    stripped output; a non-zero exit or a missing git gives None (no
    exception escapes); a launch that never ends blocks the call. *)
Theorem get_local_commit_result (s : st) :
  fst (get_local_commit s) =
    match local_answer s with
    | PExit 0 out _ => Ok (JStr (strip out))
    | PExit _ _ _ => Ok JNull
    | PNotFound => Ok JNull
    | POverran => Hang
    end.
Proof.
  unfold get_local_commit, local_answer, try_except, bind, get_cfg, subprocess_run, log, ret.
  cbn.
  destruct (w_proc _ _ _) as [[ | p | p] o e | | ]; reflexivity.
Qed.

(** X2 (create_backup): True when the copy exits 0, False when it exits
    non-zero or cp cannot be launched; the copy has no timeout, so a copy
    that never ends blocks the call. *)
Theorem create_backup_result (s : st) :
  fst (create_backup s) =
    match backup_answer s with
    | PExit 0 _ _ => Ok true
    | PExit _ _ _ => Ok false
    | PNotFound => Ok false
    | POverran => Hang
    end.
Proof.
  unfold create_backup, backup_answer, try_except, bind, get_cfg, now, strftime,
    subprocess_run, log, ret.
  cbn.
  destruct (w_proc _ _ _) as [[ | p | p] o e | | ]; reflexivity.
Qed.

(** X3 (perform_update, its start): a failed backup never stops the
    update; the first lines of [perform_update] only block when the copy
    never ends. *)
Theorem update_start_result (s : st) :
  fst (update_start s) = match backup_answer s with POverran => Hang | _ => Ok tt end.
Proof.
  unfold update_start, backup_answer, create_backup, try_except, bind, get_cfg, now, strftime,
    subprocess_run, log, ret.
  cbn.
  destruct (w_proc _ _ _) as [[ | p | p] o e | | ]; reflexivity.
Qed.


(** A command that succeeds after [j] failures. *)
Lemma fetch_attempts_recovers command j : forall k a s,
  (j < k)%nat -> a + Z.of_nat k = max_retries (cfg s) -> 0 <= retry_delay (cfg s) <= 9223372036 ->
  (forall i, (i < w_nproc (env s) + j)%nat ->
     failing (w_proc (env s) i (fetch_call (cfg s) command)) = true) ->
  (exists o e, w_proc (env s) (w_nproc (env s) + j) (fetch_call (cfg s) command) = PExit 0 o e) ->
  exists s', fetch_attempts command a k s = (Ok true, s') /\
    cfg s' = cfg s /\ ds s' = ds s /\
    runs_and_sleeps (w_trace (env s')) =
      (runs_and_sleeps (w_trace (env s)) ++
       retry_pattern (fetch_call (cfg s) command) (retry_delay (cfg s)) (S j))%list /\
    w_clock (env s') = w_clock (env s) + Z.of_nat j * retry_delay (cfg s).
Proof.
  induction j as [ | j IH]; intros k a s Hj Ha Hd Hf Hok; (destruct k as [ | k]; [lia | ]).
  - destruct Hok as (o & e & Hok); rewrite Nat.add_0_r in Hok.
    cbn [fetch_attempts].
    unfold bind, try_except, log, get_cfg, subprocess_run, ret; cbn -[fetch_attempts Z.of_nat].
    rewrite Hok; cbn.
    destruct (negb (String.eqb e "")); cbn;
      (eexists; split; [reflexivity | ]; repeat split; cbn; [ | lia];
       unfold runs_and_sleeps; rewrite !filter_app; cbn; rewrite ?app_nil_r; reflexivity).
  - specialize (Hf (w_nproc (env s)) ltac:(lia)) as Hf0.
    cbn [fetch_attempts].
    unfold bind, try_except, log, get_cfg, subprocess_run, retry_handler, time_sleep, ret;
      cbn -[fetch_attempts Z.of_nat].
    destruct (w_proc (env s) (w_nproc (env s)) (fetch_call (cfg s) command)) as [code o e | | ] eqn:Eo;
      cbn in Hf0; try discriminate.
    all: rewrite ?Hf0; cbn -[fetch_attempts Z.of_nat].
    all: rewrite (proj2 (Z.eqb_neq a (max_retries (cfg s) - 1))) by lia;
         rewrite (pytime_overflow_false (retry_delay (cfg s))), (proj2 (Z.ltb_ge (retry_delay (cfg s)) 0)) by lia; cbn -[fetch_attempts Z.of_nat].
    all: match goal with
         | |- exists s', fetch_attempts _ _ _ ?S1 = _ /\ _ =>
             destruct (IH k (a + 1) S1) as (s' & Hrun & Hc & Hds & Htr & Hcl);
             [lia | cbn -[Z.of_nat]; lia | exact Hd
             | cbn; intros i Hi; apply Hf; lia
             | destruct Hok as (o' & e' & Hok'); exists o', e'; cbn;
               rewrite <- plus_n_Sm in Hok'; exact Hok' | ]
         end.
    all: exists s'; split; [exact Hrun | ].
    all: cbn -[Z.of_nat retry_pattern] in Hc, Hds, Htr, Hcl; rewrite Hc, Hds, Htr, Hcl.
    all: repeat split; [ | lia].
    all: unfold runs_and_sleeps; rewrite !filter_app; cbn;
         rewrite ?app_nil_r, <- ?app_assoc; reflexivity.
Qed.


Lemma install_attempts_recovers j : forall k a s,
  (j < k)%nat -> a + Z.of_nat k = max_retries (cfg s) -> 0 <= retry_delay (cfg s) <= 9223372036 ->
  (forall i, (i < w_nproc (env s) + j)%nat ->
     failing (w_proc (env s) i (pip_call (cfg s))) = true) ->
  (exists o e, w_proc (env s) (w_nproc (env s) + j) (pip_call (cfg s)) = PExit 0 o e) ->
  exists s', install_attempts a k s = (Ok (Some true), s') /\
    cfg s' = cfg s /\ ds s' = ds s /\
    runs_and_sleeps (w_trace (env s')) =
      (runs_and_sleeps (w_trace (env s)) ++
       retry_pattern (pip_call (cfg s)) (retry_delay (cfg s)) (S j))%list /\
    w_clock (env s') = w_clock (env s) + Z.of_nat j * retry_delay (cfg s).
Proof.
  induction j as [ | j IH]; intros k a s Hj Ha Hd Hf Hok; (destruct k as [ | k]; [lia | ]).
  - destruct Hok as (o & e & Hok); rewrite Nat.add_0_r in Hok.
    cbn [install_attempts].
    unfold bind, try_except, log, get_cfg, subprocess_run, ret; cbn -[install_attempts Z.of_nat].
    rewrite Hok; cbn.
    eexists; split; [reflexivity | ]; repeat split; cbn; [ | lia].
    unfold runs_and_sleeps; rewrite !filter_app; cbn; rewrite ?app_nil_r; reflexivity.
  - specialize (Hf (w_nproc (env s)) ltac:(lia)) as Hf0.
    cbn [install_attempts].
    unfold bind, try_except, log, get_cfg, subprocess_run, retry_handler, time_sleep, ret;
      cbn -[install_attempts Z.of_nat].
    destruct (w_proc (env s) (w_nproc (env s)) (pip_call (cfg s))) as [code o e | | ] eqn:Eo;
      cbn in Hf0; try discriminate.
    all: rewrite ?Hf0; cbn -[install_attempts Z.of_nat].
    all: rewrite (proj2 (Z.eqb_neq a (max_retries (cfg s) - 1))) by lia;
         rewrite (pytime_overflow_false (retry_delay (cfg s))), (proj2 (Z.ltb_ge (retry_delay (cfg s)) 0)) by lia; cbn -[install_attempts Z.of_nat].
    all: match goal with
         | |- exists s', install_attempts _ _ ?S1 = _ /\ _ =>
             destruct (IH k (a + 1) S1) as (s' & Hrun & Hc & Hds & Htr & Hcl);
             [lia | cbn -[Z.of_nat]; lia | exact Hd
             | cbn; intros i Hi; apply Hf; lia
             | destruct Hok as (o' & e' & Hok'); exists o', e'; cbn;
               rewrite <- plus_n_Sm in Hok'; exact Hok' | ]
         end.
    all: exists s'; split; [exact Hrun | ].
    all: cbn -[Z.of_nat retry_pattern] in Hc, Hds, Htr, Hcl; rewrite Hc, Hds, Htr, Hcl.
    all: repeat split; [ | lia].
    all: unfold runs_and_sleeps; rewrite !filter_app; cbn;
         rewrite ?app_nil_r, <- ?app_assoc; reflexivity.
Qed.

(** A launch that cannot start is not retried. *)
Lemma fetch_attempts_not_found command k a s :
  (0 < k)%nat ->
  w_proc (env s) (w_nproc (env s)) (fetch_call (cfg s) command) = PNotFound ->
  fst (fetch_attempts command a k s) = Raise FileNotFoundError /\
  runs_and_sleeps (w_trace (env (snd (fetch_attempts command a k s)))) =
    (runs_and_sleeps (w_trace (env s)) ++ [ERun (fetch_call (cfg s) command)])%list.
Proof.
  intros Hk Hn; destruct k as [ | k]; [lia | ].
  cbn [fetch_attempts].
  unfold bind, try_except, log, get_cfg, subprocess_run, ret; cbn -[fetch_attempts].
  rewrite Hn; cbn; split; [reflexivity | ].
  unfold runs_and_sleeps; rewrite !filter_app; cbn; rewrite ?app_nil_r; reflexivity.
Qed.

Lemma install_attempts_not_found k a s :
  (0 < k)%nat ->
  w_proc (env s) (w_nproc (env s)) (pip_call (cfg s)) = PNotFound ->
  fst (install_attempts a k s) = Raise FileNotFoundError /\
  runs_and_sleeps (w_trace (env (snd (install_attempts a k s)))) =
    (runs_and_sleeps (w_trace (env s)) ++ [ERun (pip_call (cfg s))])%list.
Proof.
  intros Hk Hn; destruct k as [ | k]; [lia | ].
  cbn [install_attempts].
  unfold bind, try_except, log, get_cfg, subprocess_run, ret; cbn -[install_attempts].
  rewrite Hn; cbn; split; [reflexivity | ].
  unfold runs_and_sleeps; rewrite !filter_app; cbn; rewrite ?app_nil_r; reflexivity.
Qed.


(** X4 (fetch_latest_code, install_dependencies): with a [retry_delay]
    that [time.sleep] accepts ([0 <= retry_delay <= 9223372036]), a
    command of the code sync, or the dependency install, that fails [j]
    times and then exits 0, with [j < max_retries]: it is launched [j + 1]
    times with a sleep of [retry_delay] between consecutive launches, and
    the stage goes on (next command) or returns True. *)
Theorem retry_recovers (s : st) (j : nat) :
  Z.of_nat j < max_retries (cfg s) -> 0 <= retry_delay (cfg s) <= 9223372036 ->
  (forall command rest,
     (forall i, (i < w_nproc (env s) + j)%nat ->
        failing (w_proc (env s) i (fetch_call (cfg s) command)) = true) ->
     (exists o e, w_proc (env s) (w_nproc (env s) + j) (fetch_call (cfg s) command) = PExit 0 o e) ->
     exists s', fetch_each (command :: rest) s = fetch_each rest s' /\
       ds s' = ds s /\
       runs_and_sleeps (w_trace (env s')) =
         (runs_and_sleeps (w_trace (env s)) ++
          retry_pattern (fetch_call (cfg s) command) (retry_delay (cfg s)) (S j))%list /\
       w_clock (env s') = w_clock (env s) + Z.of_nat j * retry_delay (cfg s)) /\
  (w_exists (env s) (path_join (project_path (cfg s)) "requirements.txt") = true ->
   (forall i, (i < w_nproc (env s) + j)%nat ->
      failing (w_proc (env s) i (pip_call (cfg s))) = true) ->
   (exists o e, w_proc (env s) (w_nproc (env s) + j) (pip_call (cfg s)) = PExit 0 o e) ->
     exists s', install_dependencies s = (Ok (Some true), s') /\
       ds s' = ds s /\
       runs_and_sleeps (w_trace (env s')) =
         (runs_and_sleeps (w_trace (env s)) ++
          retry_pattern (pip_call (cfg s)) (retry_delay (cfg s)) (S j))%list /\
       w_clock (env s') = w_clock (env s) + Z.of_nat j * retry_delay (cfg s)).
Proof.
  intros Hj Hd; split.
  - intros command rest Hf Hok.
    destruct (fetch_attempts_recovers command j (Z.to_nat (max_retries (cfg s))) 0 s)
      as (s' & Hrun & Hc & Hds & Htr & Hcl); [lia | lia | exact Hd | exact Hf | exact Hok | ].
    exists s'; split; [ | split; [exact Hds | split; [exact Htr | exact Hcl]]].
    cbn [fetch_each]; unfold bind at 1, get_cfg; unfold bind at 1; rewrite Hrun; reflexivity.
  - intros He Hf Hok.
    set (s1 := set_env (emit (ELog Info "installing Python dependencies") (env s)) s).
    destruct (install_attempts_recovers j (Z.to_nat (max_retries (cfg s))) 0 s1)
      as (s' & Hrun & _ & Hds & Htr & Hcl); cbn -[Z.to_nat Z.of_nat];
      [lia | lia | exact Hd | exact Hf | exact Hok | ].
    exists s'; split; [ | split; [ | split]].
    + unfold install_dependencies, bind, get_cfg, path_exists; cbn beta iota.
      rewrite He; exact Hrun.
    + rewrite Hds; reflexivity.
    + rewrite Htr; unfold runs_and_sleeps; cbn; rewrite filter_app; cbn; rewrite app_nil_r; reflexivity.
    + rewrite Hcl; reflexivity.
Qed.

(** X5 (fetch_latest_code, install_dependencies): a launch that cannot start (FileNotFoundError: no shell, no pip, no
    project directory) is neither caught nor retried by the retry loops:
    it escapes the stage after that single launch. *)
Theorem not_found_not_retried (s : st) :
  0 < max_retries (cfg s) ->
  (forall command rest,
     w_proc (env s) (w_nproc (env s)) (fetch_call (cfg s) command) = PNotFound ->
     fst (fetch_each (command :: rest) s) = Raise FileNotFoundError /\
     runs_and_sleeps (w_trace (env (snd (fetch_each (command :: rest) s)))) =
       (runs_and_sleeps (w_trace (env s)) ++ [ERun (fetch_call (cfg s) command)])%list) /\
  (w_exists (env s) (path_join (project_path (cfg s)) "requirements.txt") = true ->
   w_proc (env s) (w_nproc (env s)) (pip_call (cfg s)) = PNotFound ->
   fst (install_dependencies s) = Raise FileNotFoundError /\
   runs_and_sleeps (w_trace (env (snd (install_dependencies s)))) =
     (runs_and_sleeps (w_trace (env s)) ++ [ERun (pip_call (cfg s))])%list).
Proof.
  intros Hm; split.
  - intros command rest Hn.
    pose proof (fetch_attempts_not_found command (Z.to_nat (max_retries (cfg s))) 0 s
                  ltac:(lia) Hn) as [Hr Htr].
    assert (E : fetch_each (command :: rest) s =
                bind (fetch_attempts command 0 (Z.to_nat (max_retries (cfg s))))
                  (fun go_on => if go_on then fetch_each rest else ret false) s)
      by reflexivity.
    rewrite E; unfold bind.
    destruct (fetch_attempts command 0 (Z.to_nat (max_retries (cfg s))) s) as [r s'].
    cbn [fst snd] in Hr, Htr |- *; subst r; split; [reflexivity | exact Htr].
  - intros He Hn.
    set (s1 := set_env (emit (ELog Info "installing Python dependencies") (env s)) s).
    pose proof (install_attempts_not_found (Z.to_nat (max_retries (cfg s))) 0 s1
                  ltac:(lia) Hn) as [Hr Htr].
    assert (E : install_dependencies s = install_attempts 0 (Z.to_nat (max_retries (cfg s))) s1).
    { unfold install_dependencies, bind, get_cfg, path_exists; cbn beta iota.
      rewrite He; reflexivity. }
    rewrite E; split; [exact Hr | rewrite Htr].
    unfold runs_and_sleeps; cbn; rewrite filter_app; cbn; rewrite app_nil_r; reflexivity.
Qed.

(** X6 (fetch_latest_code, install_dependencies, perform_update): with [max_retries <= 0] the retry loops run zero times: the code sync
    launches nothing and returns True, and the dependency install (with a
    requirements.txt) launches nothing and returns None, so
    [perform_update] fails at that stage. *)
Theorem no_attempts_without_retries (s : st) (ci : commit_info) :
  max_retries (cfg s) <= 0 ->
  fetch_latest_code s = (Ok true, s) /\
  (w_exists (env s) (path_join (project_path (cfg s)) "requirements.txt") = true ->
   install_dependencies s =
     (Ok None, set_env (emit (ELog Info "installing Python dependencies") (env s)) s)) /\
  (w_exists (env s) (path_join (project_path (cfg s)) "requirements.txt") = true ->
   fst (update_start s) = Ok tt ->
   let s1 := snd (update_start s) in
   perform_update ci s =
     (Ok false,
      set_env (emit (ELog Error "dependency install failed")
                 (emit (ELog Info "installing Python dependencies") (env s1))) s1)).
Proof.
  intros Hm.
  assert (F : forall s', max_retries (cfg s') <= 0 -> fetch_latest_code s' = (Ok true, s')).
  { intros s' H'; unfold fetch_latest_code, fetch_commands; cbn [fetch_each].
    assert (Hz : Z.to_nat (max_retries (cfg s')) = 0%nat) by lia.
    unfold bind, get_cfg; cbn -[Z.to_nat].
    repeat (rewrite Hz; cbn -[Z.to_nat]); reflexivity. }
  assert (I : forall s', max_retries (cfg s') <= 0 ->
                w_exists (env s') (path_join (project_path (cfg s')) "requirements.txt") = true ->
                install_dependencies s' =
                  (Ok None, set_env (emit (ELog Info "installing Python dependencies") (env s')) s')).
  { intros s' H' He; unfold install_dependencies, bind, get_cfg, path_exists; cbn beta iota.
    rewrite He; replace (Z.to_nat (max_retries (cfg s'))) with 0%nat by lia; reflexivity. }
  split; [exact (F s Hm) | split; [exact (I s Hm) | ]].
  intros He H1; cbv zeta.
  destruct (keeps_update_start s) as (Hc & _ & _ & _ & Hx & _).
  unfold perform_update, bind.
  destruct (update_start s) as [r1 s1]; cbn [fst snd] in *; subst r1.
  rewrite (F s1) by (rewrite Hc; exact Hm); cbn -[install_dependencies].
  rewrite (I s1) by (rewrite ?Hc, ?Hx; assumption).
  reflexivity.
Qed.

Lemma run_scripts_runs l : forall s,
  (forall i sc, In sc l -> w_proc (env s) i (script_call (cfg s) sc) <> PNotFound) ->
  exists s', run_scripts l s = (Ok tt, s') /\ stable s s' /\
    runs_and_sleeps (w_trace (env s')) =
      (runs_and_sleeps (w_trace (env s)) ++ script_runs s l)%list.
Proof.
  induction l as [ | sc rest IH]; intros s Hn.
  - exists s; split; [reflexivity | split; [apply stable_refl | ]].
    unfold script_runs; cbn; rewrite app_nil_r; reflexivity.
  - cbn [run_scripts].
    unfold bind, get_cfg, path_exists, log, try_except, subprocess_run, ret.
    cbn -[run_scripts].
    unfold script_runs; cbn [filter].
    destruct (w_exists (env s) (path_join (project_path (cfg s)) (script_check_file sc))) eqn:Ex.
    + specialize (Hn (w_nproc (env s)) sc (or_introl eq_refl)) as Hn0.
      cbn -[run_scripts].
      destruct (w_proc (env s) (w_nproc (env s)) (script_call (cfg s) sc)) as [code o e | | ] eqn:Eo;
        [ | | congruence].
      all: cbn -[run_scripts].
      all: try destruct (negb (Z.eqb code 0)); cbn -[run_scripts].
      all: match goal with
           | |- exists s', run_scripts _ ?S1 = _ /\ _ =>
               destruct (IH S1) as (s' & Hrun & Hst & Htr);
               [cbn; intros i sc' Hi; apply Hn; right; exact Hi | ]
           end.
      all: exists s'; split; [exact Hrun | ].
      all: destruct Hst as (Hc & Hd & Hp & Hh & He & Hs); cbn in Hc, Hd, Hp, Hh, He, Hs.
      all: split; [repeat split; assumption | ].
      all: rewrite Htr; unfold script_runs.
      all: unfold runs_and_sleeps; cbn; rewrite !filter_app; cbn;
           rewrite ?app_nil_r, <- ?app_assoc; reflexivity.
    + destruct (IH s) as (s' & Hrun & Hst & Htr); [intros i sc' Hi; apply Hn; right; exact Hi | ].
      exists s'; cbn -[run_scripts]; split; [exact Hrun | split; [exact Hst | exact Htr]].
Qed.

Lemma restart_each_runs (code : string -> Z) l : forall s,
  (forall i service, In service l ->
     exists o e, w_proc (env s) i (status_call service) = PExit (code service) o e) ->
  (forall i service, In service l -> w_proc (env s) i (restart_call service) <> PNotFound) ->
  exists s', restart_each l s = (Ok tt, s') /\ stable s s' /\
    runs_and_sleeps (w_trace (env s')) =
      (runs_and_sleeps (w_trace (env s)) ++ restart_runs code l)%list.
Proof.
  induction l as [ | service rest IH]; intros s Hst Hre.
  - exists s; split; [reflexivity | split; [apply stable_refl | ]].
    cbn; rewrite app_nil_r; reflexivity.
  - cbn [restart_each].
    destruct (Hst (w_nproc (env s)) service (or_introl eq_refl)) as (o & e & Eo).
    unfold bind, try_except, subprocess_run, log, ret.
    cbn -[restart_each]; rewrite Eo; cbn -[restart_each].
    destruct (Z.eqb (code service) 0) eqn:Ec.
    + specialize (Hre (S (w_nproc (env s))) service (or_introl eq_refl)) as Hr0.
      cbn -[restart_each].
      destruct (w_proc (env s) (S (w_nproc (env s))) (restart_call service)) as [c2 o2 e2 | | ] eqn:Er;
        [ | | congruence].
      all: cbn -[restart_each].
      all: try destruct (negb (Z.eqb c2 0)); cbn -[restart_each].
      all: match goal with
           | |- exists s', restart_each _ ?S1 = _ /\ _ =>
               destruct (IH S1) as (s' & Hrun & Hs' & Htr);
               [cbn; intros i sv Hi; apply Hst; right; exact Hi
               | cbn; intros i sv Hi; apply Hre; right; exact Hi | ]
           end.
      all: exists s'; split; [exact Hrun | ].
      all: destruct Hs' as (Hc & Hd & Hp & Hh & He & Hs); cbn in Hc, Hd, Hp, Hh, He, Hs.
      all: split; [repeat split; assumption | ].
      all: rewrite Htr; cbn [restart_runs flat_map]; rewrite ?Ec.
      all: unfold runs_and_sleeps; cbn; rewrite !filter_app; cbn;
           rewrite ?app_nil_r, <- ?app_assoc; reflexivity.
    + cbn -[restart_each].
      match goal with
      | |- exists s', restart_each _ ?S1 = _ /\ _ =>
          destruct (IH S1) as (s' & Hrun & Hs' & Htr);
          [cbn; intros i sv Hi; apply Hst; right; exact Hi
          | cbn; intros i sv Hi; apply Hre; right; exact Hi | ]
      end.
      exists s'; split; [exact Hrun | ].
      destruct Hs' as (Hc & Hd & Hp & Hh & He & Hs); cbn in Hc, Hd, Hp, Hh, He, Hs.
      split; [repeat split; assumption | ].
      rewrite Htr; cbn [restart_runs flat_map]; rewrite ?Ec.
      unfold runs_and_sleeps; cbn; rewrite !filter_app; cbn;
        rewrite ?app_nil_r, <- ?app_assoc; reflexivity.
Qed.


(** X7 (run_custom_scripts): when every script can be launched, it
    returns normally, launches exactly the scripts whose check file exists,
    in order, never sleeps, and leaves settings and attributes alone. *)
Theorem run_custom_scripts_effect (s : st) :
  (forall i sc, In sc scripts -> w_proc (env s) i (script_call (cfg s) sc) <> PNotFound) ->
  exists s', run_custom_scripts s = (Ok tt, s') /\ stable s s' /\
    runs_and_sleeps (w_trace (env s')) =
      (runs_and_sleeps (w_trace (env s)) ++ script_runs s scripts)%list.
Proof. apply run_scripts_runs. Qed.

(** X8 (restart_application): when each [systemctl status] exits with
    [code service] and every restart can be launched, it returns normally
    and launches, per service in order, the status check and then the
    restart exactly when the status exited 0. *)
Theorem restart_application_effect (code : string -> Z) (s : st) :
  (forall i service, In service services ->
     exists o e, w_proc (env s) i (status_call service) = PExit (code service) o e) ->
  (forall i service, In service services -> w_proc (env s) i (restart_call service) <> PNotFound) ->
  exists s', restart_application s = (Ok tt, s') /\ stable s s' /\
    runs_and_sleeps (w_trace (env s')) =
      (runs_and_sleeps (w_trace (env s)) ++ restart_runs code services)%list.
Proof. apply restart_each_runs. Qed.

Lemma retry_recovers_witness :
  Z.of_nat 1 < max_retries (cfg flaky_st) /\ 0 <= retry_delay (cfg flaky_st) <= 9223372036 /\
  exists s', install_dependencies flaky_st = (Ok (Some true), s') /\ w_clock (env s') = 1010.
Proof.
  assert (H1 : Z.of_nat 1 < max_retries (cfg flaky_st)) by (cbn; lia).
  assert (H2 : 0 <= retry_delay (cfg flaky_st) <= 9223372036) by (cbn; lia).
  split; [exact H1 | split; [exact H2 | ]].
  destruct (proj2 (retry_recovers flaky_st 1 H1 H2)) as (s' & E & _ & _ & C).
  - vm_compute; reflexivity.
  - intros i Hi; assert (i = 0%nat) by (cbn in Hi; lia); subst i; reflexivity.
  - exists "", ""; reflexivity.
  - exists s'; split; [exact E | rewrite C; reflexivity].
Defined.

Lemma not_found_not_retried_witness :
  0 < max_retries (cfg bare_st) /\ fst (install_dependencies bare_st) = Raise FileNotFoundError.
Proof.
  assert (H : 0 < max_retries (cfg bare_st)) by (cbn; lia).
  split; [exact H | ].
  apply (proj2 (not_found_not_retried bare_st H)); vm_compute; reflexivity.
Defined.

Lemma no_attempts_without_retries_witness :
  max_retries (cfg no_retry_st) <= 0 /\ fetch_latest_code no_retry_st = (Ok true, no_retry_st).
Proof.
  assert (H : max_retries (cfg no_retry_st) <= 0) by (cbn; lia).
  split; [exact H | exact (proj1 (no_attempts_without_retries no_retry_st (sample_commit "def456") H))].
Defined.

Lemma run_custom_scripts_effect_witness :
  (forall i sc, In sc scripts ->
     w_proc (env django_st) i (script_call (cfg django_st) sc) <> PNotFound) /\
  exists s', run_custom_scripts django_st = (Ok tt, s') /\
    runs_and_sleeps (w_trace (env s')) =
      [ERun (script_call sample_settings (mk_script "database migration" "python manage.py migrate" "manage.py"));
       ERun (script_call sample_settings (mk_script "static files" "python manage.py collectstatic --noinput" "manage.py"))].
Proof.
  assert (H : forall i sc, In sc scripts ->
            w_proc (env django_st) i (script_call (cfg django_st) sc) <> PNotFound).
  { intros i sc _; cbn;
    try (match goal with |- context [if ?b then _ else _] => destruct b end); discriminate. }
  split; [exact H | ].
  destruct (run_custom_scripts_effect django_st H) as (s' & E & _ & R).
  exists s'; split; [exact E | rewrite R; vm_compute; reflexivity].
Defined.

Lemma restart_application_effect_witness :
  (forall i service, In service services ->
     exists o e, w_proc (env scenario_b) i (status_call service) = PExit 0 o e) /\
  (forall i service, In service services ->
     w_proc (env scenario_b) i (restart_call service) <> PNotFound) /\
  exists s', restart_application scenario_b = (Ok tt, s') /\
    runs_and_sleeps (w_trace (env s')) =
      [ERun (status_call "myservice"); ERun (restart_call "myservice");
       ERun (status_call "nginx"); ERun (restart_call "nginx");
       ERun (status_call "gunicorn"); ERun (restart_call "gunicorn")].
Proof.
  assert (H1 : forall i service, In service services ->
            exists o e, w_proc (env scenario_b) i (status_call service) = PExit ((fun _ => 0) service) o e).
  { intros i service Hin.
    repeat (destruct Hin as [<- | Hin]; [exists "", ""; reflexivity | ]); destruct Hin. }
  assert (H2 : forall i service, In service services ->
            w_proc (env scenario_b) i (restart_call service) <> PNotFound).
  { intros i service Hin.
    repeat (destruct Hin as [<- | Hin]; [discriminate | ]); destruct Hin. }
  split; [exact H1 | split; [exact H2 | ]].
  destruct (restart_application_effect (fun _ => 0) scenario_b H1 H2) as (s' & E & _ & R).
  exists s'; split; [exact E | rewrite R; vm_compute; reflexivity].
Defined.
